(** * nest-tutorial-Fundamentals: custom providers and the demonstration controller

    A shallow embedding of the TypeScript sources
      - [src/config/dev-config.service.ts], [src/config/prod-config.service.ts]
      - [src/app.controller.ts], [src/app.controller.spec.ts]
      - the application module with the four provider declarations
        ([AppModule], [unnamed/part_000])
      - the classes listed in [custom-provider.md]
        ([config/app.config.ts], [config/config.service.ts],
         [database/database.connection.ts], [database/options.provider.ts],
         [logger/logger.service.ts]).

    JavaScript objects used as maps are [gmap string value]; instances that
    are shared by reference live in a heap and are named by their address;
    method calls and [console.log] are recorded in a trace. *)

From stdpp Require Import base strings gmap list pretty.

Local Open Scope string_scope.
Local Open Scope Z_scope.

(** ** Run-time values *)

(** [Number.MAX_SAFE_INTEGER], 2^53 - 1. *)
Definition MAX_SAFE_INTEGER : Z := 9007199254740991.

(** [Number.isSafeInteger(n)] for an integer [n]: the integers a Number
    holds exactly. *)
Definition isSafeInteger (n : Z) : bool := Z.abs n <=? MAX_SAFE_INTEGER.

(** The values that flow through property reads and template literals in
    this program.  [VNumber n _] is the Number whose value is the safe
    integer [n], as the number literals of the sources are ([3000],
    [5432]).  [VFunction name] is the built-in function object called
    [name]; [VObjectPrototype] is [Object.prototype] itself. *)
Inductive value : Type :=
  | VUndefined
  | VString (s : string)
  | VNumber (n : Z) (safe : Is_true (isSafeInteger n))
  | VFunction (name : string)
  | VObjectPrototype.

#[global] Instance value_eq_dec : EqDecision value.
Proof.
  intros v1 v2.
  refine (match v1, v2 with
          | VUndefined, VUndefined => left _
          | VString s1, VString s2 => cast_if (decide (s1 = s2))
          | VNumber n1 safe1, VNumber n2 safe2 => cast_if (decide (n1 = n2))
          | VFunction f1, VFunction f2 => cast_if (decide (f1 = f2))
          | VObjectPrototype, VObjectPrototype => left _
          | _, _ => right _
          end); try congruence.
  subst n2. f_equal. apply proof_irrel.
Defined.

(** [typeof v] *)
Definition typeof (v : value) : string :=
  match v with
  | VUndefined => "undefined"
  | VString _ => "string"
  | VNumber _ _ => "number"
  | VFunction _ => "function"
  | VObjectPrototype => "object"
  end.

(** An object literal [{ k1: v1, ..., kn: vn }]: its own properties. *)
Abbreviation literal := (gmap string value).

(** ** Property reads *)

Module ObjectPrototype.

(** The function-valued members every ordinary object inherits from
    [Object.prototype]. *)
Definition methods : list string :=
  [ "__defineGetter__"; "__defineSetter__"; "hasOwnProperty";
    "__lookupGetter__"; "__lookupSetter__"; "isPrototypeOf";
    "propertyIsEnumerable"; "toString"; "valueOf"; "toLocaleString" ].

(** [Object.prototype[key]] for a receiver that is an object literal:
    [constructor] is the function [Object], the accessor [__proto__]
    yields the receiver's prototype, i.e. [Object.prototype]. *)
Definition get (key : string) : option value :=
  if decide (key = "constructor") then Some (VFunction "Object")
  else if decide (key = "__proto__") then Some VObjectPrototype
  else if decide (key ∈ methods) then Some (VFunction key)
  else None.

(** The property names found on the prototype. *)
Definition names : list string := "constructor" :: "__proto__" :: methods.

End ObjectPrototype.

(** [o[key]] on an object literal [o]: the own property if there is one,
    else the inherited one, else [undefined]. *)
Definition get_property (o : literal) (key : string) : value :=
  match o !! key with
  | Some v => v
  | None => default VUndefined (ObjectPrototype.get key)
  end.

(** ** String conversion *)

(** [`${v}`]: the string a template literal substitutes for [v]; a safe
    integer is written as its decimal numeral, a built-in function as its
    native source text. *)
Definition ToString (v : value) : string :=
  match v with
  | VUndefined => "undefined"
  | VString s => s
  | VNumber n _ => pretty n
  | VFunction name => "function " +:+ name +:+ "() { [native code] }"
  | VObjectPrototype => "[object Object]"
  end.

(** ** [src/config]: the configuration services *)

(** [config/config.service.ts]: [abstract get(key: string): string].  The
    implementations index an object literal, so what comes back at run
    time is a [value]. *)
Module ConfigService.
Record t : Type := { get : string → value }.
End ConfigService.

(** [config/dev-config.service.ts] *)
Module DevConfigService.
Definition config : literal :=
  <["host" := VString "localhost"]> (<["port" := VString "3000"]> ∅).
Definition get (key : string) : value := get_property config key.
Definition new : ConfigService.t := {| ConfigService.get := get |}.
End DevConfigService.

(** [config/prod-config.service.ts] *)
Module ProdConfigService.
Definition config : literal :=
  <["host" := VString "prod.example.com"]> (<["port" := VString "80"]> ∅).
Definition get (key : string) : value := get_property config key.
Definition new : ConfigService.t := {| ConfigService.get := get |}.
End ProdConfigService.

(** [config/app.config.ts] *)
Definition AppConfig : literal :=
  <["port" := VNumber 3000 I]>
    (<["host" := VString "localhost"]>
       (<["apiEndpoint" := VString "/api"]> ∅)).

(** ** The object heap and the trace *)

(** Instances are shared by reference: a [ref] is the address of an object
    in the heap. *)
Abbreviation ref := nat.

(** An argument of a call as it appears in the trace. *)
Inductive printable : Type :=
  | PValue (v : value)
  | PObject (o : literal).

(** What a run leaves behind: the method calls made on heap objects and the
    lines written with [console.log]. *)
Inductive event : Type :=
  | Call (receiver : ref) (method : string) (args : list printable)
  | ConsoleLog (args : list printable).

(** [app.service.ts] is not among the sources; an [AppService] is an object
    whose [getHello()] answers a string, as [AppController] uses it. *)
Module AppService.
Record t : Type := { getHello : string }.
End AppService.

(** [logger/logger.service.ts].  A logger is an object with a [log] method;
    [log message] lists the [console.log] calls the method makes. *)
Module LoggerService.
Record t : Type := { log : string → list (list printable) }.
Definition new : t :=
  {| log message := [[PValue (VString "LOG:"); PValue (VString message)]] |}.
End LoggerService.

Inductive object : Type :=
  | OAppService (s : AppService.t)
  | OConfigService (s : ConfigService.t)
  | OLoggerService (s : LoggerService.t)
  | OOptionsProvider
  | ODatabaseConnection (options : literal)
  | OLiteral (o : literal)
  | OAppController (appService configService logger : ref).

Record world : Type := World { heap : list object; trace : list event }.

Definition empty_world : world := World [] [].

(** Computations: state passing over the world; [None] is a thrown
    [TypeError] (a method called on an object that does not have it). *)
Definition M (A : Type) : Type := world → option (A * world).

#[global] Instance M_ret : MRet M := λ A x w, Some (x, w).
#[global] Instance M_bind : MBind M := λ A B f m w,
  match m w with
  | Some (x, w') => f x w'
  | None => None
  end.

Definition throw {A} : M A := λ _, None.
Definition lift {A} (o : option A) : M A := λ w, (λ x, (x, w)) <$> o.

(** [new C(...)]: the object gets the next free address. *)
Definition alloc (o : object) : M ref := λ w,
  Some (length (heap w), World (heap w ++ [o]) (trace w)).

Definition load (r : ref) : M object := λ w, (λ o, (o, w)) <$> heap w !! r.

Definition emit (es : list event) : M unit := λ w,
  Some ((), World (heap w) (trace w ++ es)).

(** ** Methods *)

(** [configService.get(key)] *)
Definition ConfigService_get (this : ref) (key : string) : M value :=
  o ← load this;
  match o with
  | OConfigService s =>
      emit [Call this "get" [PValue (VString key)]];;
      mret (ConfigService.get s key)
  | _ => throw
  end.

(** [appService.getHello()] *)
Definition AppService_getHello (this : ref) : M string :=
  o ← load this;
  match o with
  | OAppService s => emit [Call this "getHello" []];; mret (AppService.getHello s)
  | _ => throw
  end.

(** [logger.log(message)] *)
Definition LoggerService_log (this : ref) (message : string) : M unit :=
  o ← load this;
  match o with
  | OLoggerService s =>
      emit [Call this "log" [PValue (VString message)]];;
      emit (ConsoleLog <$> LoggerService.log s message)
  | _ => throw
  end.

(** [database/options.provider.ts] *)
Module OptionsProvider.
Definition options : literal :=
  <["host" := VString "localhost"]> (<["port" := VNumber 5432 I]> ∅).

Definition get (this : ref) : M literal :=
  o ← load this;
  match o with
  | OOptionsProvider => emit [Call this "get" []];; mret options
  | _ => throw
  end.
End OptionsProvider.

(** [database/database.connection.ts] *)
Module DatabaseConnection.
Definition new (options : literal) : M ref := alloc (ODatabaseConnection options).

Definition connect (this : ref) : M bool :=
  o ← load this;
  match o with
  | ODatabaseConnection options =>
      emit [Call this "connect" []];;
      emit [ConsoleLog [PValue (VString "データベース接続を実施:"); PObject options]];;
      mret true
  | _ => throw
  end.
End DatabaseConnection.

(** [src/app.controller.ts] *)
Module AppController.
Definition new (appService configService logger : ref) : M ref :=
  alloc (OAppController appService configService logger).

Definition getHello (this : ref) : M string :=
  o ← load this;
  match o with
  | OAppController appService configService logger =>
      LoggerService_log logger "getHello() が呼ばれました";;
      host ← ConfigService_get configService "host";
      greeting ← AppService_getHello appService;
      mret (greeting +:+ " - Config Host: " +:+ ToString host)
  | _ => throw
  end.
End AppController.

(** ** Providers and modules *)

Inductive class : Type :=
  | CAppService
  | CAppController
  | CConfigService
  | CDevConfigService
  | CProdConfigService
  | CLoggerService
  | COptionsProvider.

#[global] Instance class_eq_dec : EqDecision class.
Proof. solve_decision. Defined.

(** An injection token: a class reference or a string. *)
Inductive token : Type :=
  | Class (c : class)
  | Named (name : string).

#[global] Instance token_eq_dec : EqDecision token.
Proof. solve_decision. Defined.

(** The four kinds of custom provider of [custom-provider.md]. *)
Inductive provider : Type :=
  | ClassProvider (provide : token) (useClass : class)
  | ValueProvider (provide : token) (useValue : object)
  | FactoryProvider (provide : token) (useFactory : list ref → M ref)
                    (inject : list token)
  | ExistingProvider (provide : token) (useExisting : token).

(** A class listed as it is stands for [{ provide: C, useClass: C }]. *)
Definition standard (c : class) : provider := ClassProvider (Class c) c.

Definition provide (p : provider) : token :=
  match p with
  | ClassProvider t _ | ValueProvider t _
  | FactoryProvider t _ _ | ExistingProvider t _ => t
  end.

(** The argument of [@Module] (and of [Test.createTestingModule]). *)
Record module_metadata : Type := Module_ {
  imports : list class;
  controllers : list class;
  providers : list provider;
  exports : list token
}.

(** A process environment ([process.env]). *)
Abbreviation environment := (gmap string string).

(** *** The declarations of the application module *)

Section AppModule.

Variable env : environment.

(** Factory provider: builds the [DatabaseConnection]. *)
Definition connectionProvider_useFactory (args : list ref) : M ref :=
  match args with
  | [optionsProvider] =>
      options ← OptionsProvider.get optionsProvider;
      connection ← DatabaseConnection.new options;
      DatabaseConnection.connect connection;;
      mret connection
  | _ => throw
  end.

Definition connectionProvider : provider :=
  FactoryProvider (Named "DATABASE_CONNECTION")
    connectionProvider_useFactory [Class COptionsProvider].

(** Class provider: the [ConfigService] implementation for the
    environment, [process.env.NODE_ENV === 'production' ? ... : ...]. *)
Definition configServiceProvider : provider :=
  ClassProvider (Class CConfigService)
    (if decide (env !! "NODE_ENV" = Some "production")
     then CProdConfigService else CDevConfigService).

(** Value provider: the constant object as it is. *)
Definition appConfigProvider : provider :=
  ValueProvider (Named "APP_CONFIG") (OLiteral AppConfig).

(** Alias provider: another name for [LoggerService]. *)
Definition loggerAliasProvider : provider :=
  ExistingProvider (Named "ALIAS_LOGGER") (Class CLoggerService).

Definition AppModule : module_metadata :=
  {| imports := [];
     controllers := [CAppController];
     providers :=
       [ standard CAppService;
         standard COptionsProvider;
         connectionProvider;
         configServiceProvider;
         appConfigProvider;
         standard CLoggerService;
         loggerAliasProvider ];
     exports :=
       [ Named "DATABASE_CONNECTION"; Class CConfigService;
         Named "APP_CONFIG"; Named "ALIAS_LOGGER" ] |}.

End AppModule.

(** *** The testing module of [src/app.controller.spec.ts] *)

Module Spec.
(** [{ get: (key) => (key === 'host' ? 'localhost' : undefined) }] *)
Definition configStub : ConfigService.t :=
  {| ConfigService.get key :=
       if decide (key = "host") then VString "localhost" else VUndefined |}.

(** [{ log: (msg) => {} }] *)
Definition loggerStub : LoggerService.t := {| LoggerService.log _ := [] |}.

Definition TestingModule : module_metadata :=
  {| imports := [];
     controllers := [CAppController];
     providers :=
       [ standard CAppService;
         ValueProvider (Class CConfigService) (OConfigService configStub);
         ValueProvider (Named "ALIAS_LOGGER") (OLoggerService loggerStub) ];
     exports := [] |}.
End Spec.

(** ** The container *)

(** Modelled from the spec: the host framework's dependency-injection
    container, which is not among the sources.  The spec leaves
    registration, instantiation and resolution to the framework and names
    the four bindings: a constant object, a class chosen by the
    environment, a factory function and a reference alias.
    [custom-provider.md] states what each does: [useValue] provides the
    object as it is, [useClass] instantiates the chosen class,
    [useFactory] calls the factory with the injected instances,
    [useExisting] makes a second token refer to the instance of an
    existing one.  Each binding of a module is instantiated once, when the
    application starts, whatever the order the bindings are listed in. *)

Abbreviation instances := (list (token * ref)).

(** Modelled from the spec: the container's lookup of the instance bound
    to a token. *)
Fixpoint resolve (insts : instances) (t : token) : option ref :=
  match insts with
  | [] => None
  | (t', r) :: rest => if decide (t' = t) then Some r else resolve rest t
  end.

Section Container.

(** What [new AppService()] builds. *)
Variable appService : AppService.t.

(** The constructor parameters of the classes, as tokens. *)
Definition constructor_parameters (c : class) : list token :=
  match c with
  | CAppController =>
      [Class CAppService; Class CConfigService; Named "ALIAS_LOGGER"]
  | _ => []
  end.

(** [new c(...args)]; [ConfigService] is abstract. *)
Definition construct (c : class) (args : list ref) : M ref :=
  match c, args with
  | CAppService, [] => alloc (OAppService appService)
  | CAppController, [a; cfg; l] => AppController.new a cfg l
  | CDevConfigService, [] => alloc (OConfigService DevConfigService.new)
  | CProdConfigService, [] => alloc (OConfigService ProdConfigService.new)
  | CLoggerService, [] => alloc (OLoggerService LoggerService.new)
  | COptionsProvider, [] => alloc OOptionsProvider
  | _, _ => throw
  end.

(** Modelled from the spec: the container's instantiation of one binding,
    by its kind, from the instances already bound. *)
Definition instantiate (insts : instances) (p : provider) : M ref :=
  match p with
  | ClassProvider _ c =>
      args ← lift (mapM (resolve insts) (constructor_parameters c));
      construct c args
  | ValueProvider _ o => alloc o
  | FactoryProvider _ useFactory inject =>
      args ← lift (mapM (resolve insts) inject);
      useFactory args
  | ExistingProvider _ t => lift (resolve insts t)
  end.

(** The tokens a binding needs bound before it can be instantiated. *)
Definition dependencies (p : provider) : list token :=
  match p with
  | ClassProvider _ c => constructor_parameters c
  | ValueProvider _ _ => []
  | FactoryProvider _ _ inject => inject
  | ExistingProvider _ t => [t]
  end.

Definition ready (insts : instances) (p : provider) : bool :=
  forallb (λ t, bool_decide (is_Some (resolve insts t))) (dependencies p).

(** The first pending binding whose dependencies are bound, and the
    bindings still pending after it. *)
Fixpoint next_ready (insts : instances) (pending : list provider)
    : option (provider * list provider) :=
  match pending with
  | [] => None
  | p :: rest =>
      if ready insts p then Some (p, rest)
      else '(q, rest') ← next_ready insts rest; Some (q, p :: rest')
  end.

(** Modelled from the spec: the container instantiates the pending
    bindings, each as soon as its dependencies are bound, until none is
    left; a binding whose dependencies never get bound makes the start
    fail.  Every step takes one binding off the pending ones, so [fuel]
    no less than their number is never used up. *)
Fixpoint instantiate_pending (fuel : nat) (pending : list provider)
    (insts : instances) : M instances :=
  match pending, fuel with
  | [], _ => mret insts
  | _, O => throw
  | _, S fuel' =>
      '(p, rest) ← lift (next_ready insts pending);
      r ← instantiate insts p;
      instantiate_pending fuel' rest ((provide p, r) :: insts)
  end.

(** Modelled from the spec: the container instantiates every binding of
    the list once, dependencies first. *)
Definition instantiate_all (ps : list provider) (insts : instances) : M instances :=
  instantiate_pending (length ps) ps insts.

(** Modelled from the spec: starting the application instantiates the
    providers of the module, then its controllers. *)
Definition bootstrap (m : module_metadata) : M instances :=
  insts ← instantiate_all (providers m) [];
  instantiate_all (standard <$> controllers m) insts.

End Container.

(** ** Observations *)

(** The controller at [this] has these three objects injected. *)
Definition injected (w : world) (this : ref)
    (app : AppService.t) (cfg : ConfigService.t) (lg : LoggerService.t) : Prop :=
  ∃ a c l,
    heap w !! this = Some (OAppController a c l) ∧
    heap w !! a = Some (OAppService app) ∧
    heap w !! c = Some (OConfigService cfg) ∧
    heap w !! l = Some (OLoggerService lg).

(** The events of one call of [getHello()]. *)
Definition getHello_events (a c l : ref) (lg : LoggerService.t) : list event :=
  Call l "log" [PValue (VString "getHello() が呼ばれました")]
    :: (ConsoleLog <$> LoggerService.log lg "getHello() が呼ばれました")
    ++ [Call c "get" [PValue (VString "host")]; Call a "getHello" []].

(** The receivers of the calls of [method] in a trace, in order. *)
Definition calls_of (method : string) (tr : list event) : list ref :=
  omap (λ e, match e with
             | Call r m _ => if decide (m = method) then Some r else None
             | ConsoleLog _ => None
             end) tr.

(** The object bound to a token once the module has started. *)
Definition bound (insts : instances) (w : world) (t : token) : option object :=
  r ← resolve insts t; heap w !! r.

(** The application once started: the bindings, the heap and the trace
    ([bootstrap_AppModule] below). *)
Definition AppModule_instances : instances :=
  [ (Class CAppController, 6%nat); (Named "ALIAS_LOGGER", 5%nat);
    (Class CLoggerService, 5%nat); (Named "APP_CONFIG", 4%nat);
    (Class CConfigService, 3%nat); (Named "DATABASE_CONNECTION", 2%nat);
    (Class COptionsProvider, 1%nat); (Class CAppService, 0%nat) ].

Definition AppModule_heap (app : AppService.t) (env : environment) : list object :=
  [ OAppService app;
    OOptionsProvider;
    ODatabaseConnection OptionsProvider.options;
    OConfigService (if decide (env !! "NODE_ENV" = Some "production")
                    then ProdConfigService.new else DevConfigService.new);
    OLiteral AppConfig;
    OLoggerService LoggerService.new;
    OAppController 0 3 5 ].

Definition AppModule_trace : list event :=
  [ Call 1 "get" [];
    Call 2 "connect" [];
    ConsoleLog [PValue (VString "データベース接続を実施:");
                PObject OptionsProvider.options] ].

Module SpecRun.
(** The test body: build the testing module, take the controller out of
    it ([app.get(AppController)]) and call [getHello()]. *)
Definition root (app : AppService.t) : option string :=
  fst <$> (insts ← bootstrap app Spec.TestingModule;
           appController ← lift (resolve insts (Class CAppController));
           AppController.getHello appController) empty_world.
End SpecRun.

(** The lines written with [console.log] in a trace, in order. *)
Definition console_of (tr : list event) : list (list printable) :=
  omap (λ e, match e with
             | ConsoleLog args => Some args
             | Call _ _ _ => None
             end) tr.

(** The method calls of a trace, in order. *)
Definition method_calls (tr : list event) : list (ref * string * list printable) :=
  omap (λ e, match e with
             | Call r m args => Some (r, m, args)
             | ConsoleLog _ => None
             end) tr.

(** The tokens a module declares a provider for. *)
Definition provided (m : module_metadata) : list token := provide <$> providers m.

(** [n] requests in a row: [getHello()] called [n] times on the same
    controller, the responses in order. *)
Fixpoint getHello_times (n : nat) (this : ref) : M (list string) :=
  match n with
  | O => mret []
  | S n' =>
      response ← AppController.getHello this;
      responses ← getHello_times n' this;
      mret (response :: responses)
  end.

(** The first request to the started application: start [AppModule], take
    the controller the container built and call [getHello()]. *)
Definition first_request (app : AppService.t) (env : environment)
    : option (string * world) :=
  (insts ← bootstrap app (AppModule env);
   appController ← lift (resolve insts (Class CAppController));
   AppController.getHello appController) empty_world.

(** * Properties *)

(** ** Property reads at work *)

Example dev_get_host : DevConfigService.get "host" = VString "localhost".
Proof. reflexivity. Qed.

Example prod_get_port : ProdConfigService.get "port" = VString "80".
Proof. reflexivity. Qed.

Example dev_get_apiEndpoint : DevConfigService.get "apiEndpoint" = VUndefined.
Proof. reflexivity. Qed.

Example prod_get_toString : ProdConfigService.get "toString" = VFunction "toString".
Proof. reflexivity. Qed.

Example ToString_port : ToString (get_property AppConfig "port") = "3000".
Proof. reflexivity. Qed.

(** ** The container at work *)

Lemma next_ready_length insts pending p rest :
  next_ready insts pending = Some (p, rest) →
  length pending = S (length rest).
Proof.
  revert p rest. induction pending as [|q pending IH]; intros p rest; simpl.
  - discriminate.
  - destruct (ready insts q).
    + by intros [= _ <-].
    + destruct (next_ready insts pending) as [[p' rest']|]; simpl; [ | discriminate ].
      intros [= _ <-]. simpl. f_equal. by apply (IH p').
Qed.

(** The fuel of [instantiate_all] is never used up: more of it changes
    nothing. *)
Lemma instantiate_pending_fuel app fuel pending insts w :
  (length pending ≤ fuel)%nat →
  instantiate_pending app fuel pending insts w
    = instantiate_pending app (length pending) pending insts w.
Proof.
  revert pending insts w.
  induction fuel as [|fuel IH]; intros [|p pending] insts w Hfuel;
    try done; [ simpl in Hfuel; lia | ].
  simpl length. cbn [instantiate_pending].
  unfold mbind, M_bind, lift.
  destruct (next_ready insts (p :: pending)) as [[q rest]|] eqn:Hnext;
    simpl; [ | done ].
  apply next_ready_length in Hnext. simpl in Hnext.
  injection Hnext as Hlength.
  destruct (instantiate app insts q w) as [[r w']|]; [ | done ].
  rewrite Hlength. apply IH. simpl in Hfuel. lia.
Qed.

(** A module that lists the alias before the logger, and the logger after
    the controller's other dependencies, starts all the same. *)
Example bootstrap_any_order :
  fst <$> bootstrap {| AppService.getHello := "Hello World!" |}
            {| imports := []; controllers := [CAppController];
               providers := [ loggerAliasProvider; configServiceProvider ∅;
                              standard CLoggerService; standard CAppService ];
               exports := [] |} empty_world
  = Some [ (Class CAppController, 3%nat); (Class CAppService, 2%nat);
           (Named "ALIAS_LOGGER", 1%nat); (Class CLoggerService, 1%nat);
           (Class CConfigService, 0%nat) ].
Proof. reflexivity. Qed.

(** A controller whose logger is bound nowhere does not start. *)
Example bootstrap_unbound_dependency :
  bootstrap {| AppService.getHello := "Hello World!" |}
    {| imports := []; controllers := [CAppController];
       providers := [ standard CAppService; configServiceProvider ∅ ];
       exports := [] |} empty_world
  = None.
Proof. reflexivity. Qed.

(** ** Stepping through the methods *)

Lemma bind_Some {A B} (m : M A) (f : A → M B) w x w' :
  m w = Some (x, w') → (m ≫= f) w = f x w'.
Proof. intros H. unfold mbind, M_bind. by rewrite H. Qed.

(** Run the first computation of a bind with lemma [L]. *)
Ltac step L :=
  erewrite bind_Some; [ | apply L; simpl; eassumption ]; cbv beta iota.

Lemma load_Some w r o : heap w !! r = Some o → load r w = Some (o, w).
Proof. intros H. unfold load. by rewrite H. Qed.

Lemma ConfigService_get_Some w this s key :
  heap w !! this = Some (OConfigService s) →
  ConfigService_get this key w =
    Some (ConfigService.get s key,
          World (heap w) (trace w ++ [Call this "get" [PValue (VString key)]])).
Proof.
  intros H. unfold ConfigService_get.
  by rewrite (bind_Some _ _ _ _ _ (load_Some _ _ _ H)).
Qed.

Lemma AppService_getHello_Some w this s :
  heap w !! this = Some (OAppService s) →
  AppService_getHello this w =
    Some (AppService.getHello s,
          World (heap w) (trace w ++ [Call this "getHello" []])).
Proof.
  intros H. unfold AppService_getHello.
  by rewrite (bind_Some _ _ _ _ _ (load_Some _ _ _ H)).
Qed.

Lemma LoggerService_log_Some w this s message :
  heap w !! this = Some (OLoggerService s) →
  LoggerService_log this message w =
    Some ((), World (heap w)
                (trace w ++ Call this "log" [PValue (VString message)]
                   :: (ConsoleLog <$> LoggerService.log s message))).
Proof.
  intros H. unfold LoggerService_log.
  rewrite (bind_Some _ _ _ _ _ (load_Some _ _ _ H)).
  unfold mbind, M_bind, emit; simpl. by rewrite <- app_assoc.
Qed.

Lemma getHello_Some w this a c l app cfg lg :
  heap w !! this = Some (OAppController a c l) →
  heap w !! a = Some (OAppService app) →
  heap w !! c = Some (OConfigService cfg) →
  heap w !! l = Some (OLoggerService lg) →
  AppController.getHello this w =
    Some (AppService.getHello app +:+ " - Config Host: "
            +:+ ToString (ConfigService.get cfg "host"),
          World (heap w) (trace w ++ getHello_events a c l lg)).
Proof.
  intros Hthis Ha Hc Hl. unfold AppController.getHello.
  step load_Some. step LoggerService_log_Some.
  step ConfigService_get_Some. step AppService_getHello_Some.
  unfold mret, M_ret, getHello_events; simpl.
  by rewrite <- !app_assoc.
Qed.

Lemma OptionsProvider_get_Some w this :
  heap w !! this = Some OOptionsProvider →
  OptionsProvider.get this w =
    Some (OptionsProvider.options,
          World (heap w) (trace w ++ [Call this "get" []])).
Proof. intros H. unfold OptionsProvider.get. by step load_Some. Qed.

Lemma connect_Some w this options :
  heap w !! this = Some (ODatabaseConnection options) →
  DatabaseConnection.connect this w =
    Some (true,
          World (heap w)
            (trace w ++
               [ Call this "connect" [];
                 ConsoleLog [PValue (VString "データベース接続を実施:");
                             PObject options] ])).
Proof.
  intros H. unfold DatabaseConnection.connect. step load_Some.
  unfold mbind, M_bind, emit, mret, M_ret; simpl. by rewrite <- app_assoc.
Qed.

Lemma new_connection_Some w options :
  DatabaseConnection.new options w =
    Some (length (heap w),
          World (heap w ++ [ODatabaseConnection options]) (trace w)).
Proof. reflexivity. Qed.

Lemma useFactory_Some w optionsProvider :
  heap w !! optionsProvider = Some OOptionsProvider →
  connectionProvider_useFactory [optionsProvider] w =
    Some (length (heap w),
          World (heap w ++ [ODatabaseConnection OptionsProvider.options])
            (trace w ++
               [ Call optionsProvider "get" [];
                 Call (length (heap w)) "connect" [];
                 ConsoleLog [PValue (VString "データベース接続を実施:");
                             PObject OptionsProvider.options] ])).
Proof.
  intros H. unfold connectionProvider_useFactory.
  step OptionsProvider_get_Some.
  erewrite bind_Some; [ | apply new_connection_Some ]; simpl.
  erewrite bind_Some; [ | apply connect_Some; simpl; apply list_lookup_middle; done ].
  unfold mret, M_ret; simpl. by rewrite <- app_assoc.
Qed.

Lemma bootstrap_AppModule app env :
  bootstrap app (AppModule env) empty_world =
    Some (AppModule_instances, World (AppModule_heap app env) AppModule_trace).
Proof.
  unfold AppModule, configServiceProvider, AppModule_heap.
  case_decide; reflexivity.
Qed.

Lemma getHello_injected w this app cfg lg :
  injected w this app cfg lg →
  ∃ w', AppController.getHello this w =
          Some (AppService.getHello app +:+ " - Config Host: "
                  +:+ ToString (ConfigService.get cfg "host"), w')
        ∧ heap w' = heap w.
Proof.
  intros (a & c & l & Hthis & Ha & Hc & Hl).
  eexists. split; [ by apply (getHello_Some w this a c l app cfg lg) | done ].
Qed.

(** ** The controller *)

(** C1: with the configuration lookup stubbed to answer 'localhost' for the
    key 'host' and undefined for any other key, and the greeting
    'Hello World!', [getHello()] returns exactly
    "Hello World! - Config Host: localhost"; the test of
    [app.controller.spec.ts] passes. *)
Theorem getHello_stubbed_config (app : AppService.t) :
  AppService.getHello app = "Hello World!" →
  SpecRun.root app = Some "Hello World! - Config Host: localhost" ∧
  ∀ w this cfg lg,
    injected w this app cfg lg →
    (∀ key, ConfigService.get cfg key =
            if decide (key = "host") then VString "localhost" else VUndefined) →
    fst <$> AppController.getHello this w =
      Some "Hello World! - Config Host: localhost".
Proof.
  intros Hhello. split.
  - destruct app as [greeting]; simpl in Hhello; subst greeting. reflexivity.
  - intros w this cfg lg Hinj Hstub.
    destruct (getHello_injected _ _ _ _ _ Hinj) as (w' & -> & _).
    rewrite Hhello, Hstub. reflexivity.
Qed.

Lemma getHello_stubbed_config_witness :
  let app := {| AppService.getHello := "Hello World!" |} in
  AppService.getHello app = "Hello World!" ∧
  SpecRun.root app = Some "Hello World! - Config Host: localhost".
Proof.
  intros app. split; [ reflexivity | ].
  exact (proj1 (getHello_stubbed_config app eq_refl)).
Defined.

(** C2: for every injected AppService and ConfigService, [getHello()]
    returns the greeting [appService.getHello()] followed by
    " - Config Host: " and by [configService.get('host')] as the template
    literal writes it: a string as it is, undefined as 'undefined', a safe
    integer as its decimal numeral, a built-in function as its native
    source text, [Object.prototype] as '[object Object]'; the host part
    depends on the configuration only through the lookup of 'host'. *)
Theorem getHello_concatenation w this app cfg lg :
  injected w this app cfg lg →
  fst <$> AppController.getHello this w =
    Some (AppService.getHello app +:+ " - Config Host: "
            +:+ match ConfigService.get cfg "host" with
                | VString host => host
                | VUndefined => "undefined"
                | VNumber n _ => pretty n
                | VFunction name => "function " +:+ name +:+ "() { [native code] }"
                | VObjectPrototype => "[object Object]"
                end) ∧
  (∀ host, ConfigService.get cfg "host" = VString host →
     fst <$> AppController.getHello this w =
       Some (AppService.getHello app +:+ " - Config Host: " +:+ host)) ∧
  (∀ w' this' cfg' lg',
     injected w' this' app cfg' lg' →
     ConfigService.get cfg' "host" = ConfigService.get cfg "host" →
     fst <$> AppController.getHello this' w' =
       fst <$> AppController.getHello this w).
Proof.
  intros Hinj.
  destruct (getHello_injected _ _ _ _ _ Hinj) as (w1 & Hrun & _).
  rewrite Hrun. split_and!.
  - simpl. by destruct (ConfigService.get cfg "host").
  - by intros host ->.
  - intros w' this' cfg' lg' Hinj' Hhost.
    destruct (getHello_injected _ _ _ _ _ Hinj') as (w2 & -> & _).
    simpl. by rewrite Hhost.
Qed.

Lemma getHello_concatenation_witness :
  fst <$> AppController.getHello 6
            (World (AppModule_heap {| AppService.getHello := "Hello World!" |} ∅)
                   AppModule_trace) =
    Some "Hello World! - Config Host: localhost" ∧
  fst <$> AppController.getHello 0
            (World [ OAppController 1 2 3;
                     OAppService {| AppService.getHello := "Hello World!" |};
                     OConfigService {| ConfigService.get := get_property AppConfig |};
                     OLoggerService Spec.loggerStub ] []) =
    Some "Hello World! - Config Host: localhost" ∧
  fst <$> AppController.getHello 0
            (World [ OAppController 1 2 3;
                     OAppService {| AppService.getHello := "Hello World!" |};
                     OConfigService {| ConfigService.get _ := VNumber 3000 I |};
                     OLoggerService Spec.loggerStub ] []) =
    Some "Hello World! - Config Host: 3000".
Proof.
  split_and!.
  - refine (proj1 (getHello_concatenation
                     (World (AppModule_heap
                               {| AppService.getHello := "Hello World!" |} ∅)
                            AppModule_trace) 6
                     {| AppService.getHello := "Hello World!" |}
                     DevConfigService.new LoggerService.new _)).
    exists 0%nat, 3%nat, 5%nat. repeat split; reflexivity.
  - refine (proj1 (getHello_concatenation _ 0
                     {| AppService.getHello := "Hello World!" |}
                     {| ConfigService.get := get_property AppConfig |}
                     Spec.loggerStub _)).
    exists 1%nat, 2%nat, 3%nat. repeat split; reflexivity.
  - refine (proj1 (getHello_concatenation _ 0
                     {| AppService.getHello := "Hello World!" |}
                     {| ConfigService.get _ := VNumber 3000 I |}
                     Spec.loggerStub _)).
    exists 1%nat, 2%nat, 3%nat. repeat split; reflexivity.
Defined.

(** C10: [getHello()] is deterministic and leaves the controller as it was:
    with the same AppService, ConfigService and logger injected, a second
    call returns the same string as the first, the string is fixed by
    [appService.getHello()] and [configService.get('host')] whatever the
    logger, and the heap, hence the three fields of the controller, is
    unchanged by the calls. *)
Theorem getHello_deterministic_readonly w this app cfg lg :
  injected w this app cfg lg →
  ∃ s w1 w2,
    AppController.getHello this w = Some (s, w1) ∧
    AppController.getHello this w1 = Some (s, w2) ∧
    heap w1 = heap w ∧ heap w2 = heap w ∧
    injected w1 this app cfg lg ∧
    (∀ w' this' lg',
       injected w' this' app cfg lg' →
       fst <$> AppController.getHello this' w' = Some s).
Proof.
  intros Hinj.
  destruct (getHello_injected _ _ _ _ _ Hinj) as (w1 & Hrun1 & Hheap1).
  assert (Hinj1 : injected w1 this app cfg lg).
  { unfold injected in *. by rewrite Hheap1. }
  destruct (getHello_injected _ _ _ _ _ Hinj1) as (w2 & Hrun2 & Hheap2).
  eexists _, w1, w2. split_and!; try done.
  - congruence.
  - intros w' this' lg' Hinj'.
    by destruct (getHello_injected _ _ _ _ _ Hinj') as (w3 & -> & _).
Qed.

Lemma getHello_deterministic_readonly_witness :
  let w := World (AppModule_heap {| AppService.getHello := "Hello World!" |} ∅)
                 AppModule_trace in
  ∃ s w1 w2,
    AppController.getHello 6 w = Some (s, w1) ∧
    AppController.getHello 6 w1 = Some (s, w2) ∧
    heap w1 = heap w ∧ heap w2 = heap w.
Proof.
  intros w.
  destruct (getHello_deterministic_readonly w 6
              {| AppService.getHello := "Hello World!" |}
              DevConfigService.new LoggerService.new)
    as (s & w1 & w2 & H1 & H2 & H3 & H4 & _).
  - exists 0%nat, 3%nat, 5%nat. repeat split; reflexivity.
  - by exists s, w1, w2.
Defined.

(** ** The configuration services *)

Lemma get_property_missing (o : literal) key :
  o !! key = None → key ∉ ObjectPrototype.names →
  get_property o key = VUndefined.
Proof.
  intros Hown Hnames. unfold get_property. rewrite Hown.
  unfold ObjectPrototype.get, ObjectPrototype.names in *.
  apply not_elem_of_cons in Hnames as [Hconstructor Hnames].
  apply not_elem_of_cons in Hnames as [Hproto Hmethods].
  by rewrite !decide_False.
Qed.

Lemma get_property_inherited key :
  typeof (default VUndefined (ObjectPrototype.get key)) ≠ "string".
Proof. unfold ObjectPrototype.get. by repeat case_decide. Qed.

Lemma dev_config_other key :
  key ≠ "host" → key ≠ "port" → DevConfigService.config !! key = None.
Proof.
  intros Hhost Hport. unfold DevConfigService.config.
  by rewrite !lookup_insert_ne, lookup_empty.
Qed.

Lemma prod_config_other key :
  key ≠ "host" → key ≠ "port" → ProdConfigService.config !! key = None.
Proof.
  intros Hhost Hport. unfold ProdConfigService.config.
  by rewrite !lookup_insert_ne, lookup_empty.
Qed.

(** C4: the two configuration services answer 'localhost'/'3000' (dev) and
    'prod.example.com'/'80' (prod) for the keys 'host' and 'port', and they
    agree on a key exactly when it is neither 'host' nor 'port'. *)
Theorem dev_prod_differ_only_at_host_port :
  DevConfigService.get "host" = VString "localhost" ∧
  DevConfigService.get "port" = VString "3000" ∧
  ProdConfigService.get "host" = VString "prod.example.com" ∧
  ProdConfigService.get "port" = VString "80" ∧
  ∀ key, DevConfigService.get key = ProdConfigService.get key
         ↔ key ≠ "host" ∧ key ≠ "port".
Proof.
  split_and!; try reflexivity.
  intros key. split.
  - intros Heq. split; intros ->; discriminate Heq.
  - intros [Hhost Hport].
    unfold DevConfigService.get, ProdConfigService.get, get_property.
    by rewrite dev_config_other, prod_config_other.
Qed.

Lemma dev_prod_differ_only_at_host_port_witness :
  DevConfigService.get "apiEndpoint" = ProdConfigService.get "apiEndpoint".
Proof.
  apply (proj2 (proj2 (proj2 (proj2 dev_prod_differ_only_at_host_port)))).
  split; discriminate.
Defined.

(** C8, as stated, fails: 'toString' is neither 'host' nor 'port', and both
    services answer the inherited method for it, not undefined. *)
Lemma get_inherited_key_not_undefined :
  ¬ (∀ key, key ≠ "host" → key ≠ "port" →
       DevConfigService.get key = VUndefined ∧
       ProdConfigService.get key = VUndefined).
Proof.
  intros H. destruct (H "toString") as [Hdev _]; [ done | done | ].
  discriminate Hdev.
Qed.

(** C8, amended: for every key other than 'host' and 'port' that is not the
    name of a property inherited from [Object.prototype], both services
    return undefined, and for no key other than 'host' and 'port' is the
    result a string, whatever the declared return type; when the lookup of
    'host' yields undefined, [getHello()] embeds the text 'undefined'. *)
Theorem get_missing_key_undefined :
  (∀ key, key ≠ "host" → key ≠ "port" → key ∉ ObjectPrototype.names →
     DevConfigService.get key = VUndefined ∧
     ProdConfigService.get key = VUndefined) ∧
  (∀ key, key ≠ "host" → key ≠ "port" →
     typeof (DevConfigService.get key) ≠ "string" ∧
     typeof (ProdConfigService.get key) ≠ "string") ∧
  (∀ w this app cfg lg,
     injected w this app cfg lg →
     ConfigService.get cfg "host" = VUndefined →
     fst <$> AppController.getHello this w =
       Some (AppService.getHello app +:+ " - Config Host: undefined")).
Proof.
  split_and!.
  - intros key Hhost Hport Hnames. split.
    + by apply get_property_missing; [ apply dev_config_other | ].
    + by apply get_property_missing; [ apply prod_config_other | ].
  - intros key Hhost Hport.
    unfold DevConfigService.get, ProdConfigService.get, get_property.
    rewrite dev_config_other, prod_config_other by done.
    split; apply get_property_inherited.
  - intros w this app cfg lg Hinj Hmiss.
    destruct (getHello_injected _ _ _ _ _ Hinj) as (w' & -> & _).
    by rewrite Hmiss.
Qed.

Lemma get_missing_key_undefined_witness :
  (DevConfigService.get "apiEndpoint" = VUndefined ∧
   ProdConfigService.get "apiEndpoint" = VUndefined) ∧
  fst <$> AppController.getHello 0
            (World [ OAppController 1 2 3;
                     OAppService {| AppService.getHello := "Hello World!" |};
                     OConfigService {| ConfigService.get _ := VUndefined |};
                     OLoggerService Spec.loggerStub ] []) =
    Some "Hello World! - Config Host: undefined".
Proof.
  destruct get_missing_key_undefined as (Hget & _ & Hhello). split.
  - apply Hget; [ discriminate | discriminate | ].
    by apply (bool_decide_unpack _).
  - apply (Hhello _ _ {| AppService.getHello := "Hello World!" |}
                  {| ConfigService.get _ := VUndefined |} Spec.loggerStub).
    + exists 1%nat, 2%nat, 3%nat. repeat split; reflexivity.
    + reflexivity.
Defined.

(** ** The provider declarations *)

(** C3: the class bound to [ConfigService] is [ProdConfigService] exactly
    when [NODE_ENV] is 'production' and [DevConfigService] for every other
    value, an absent one included; the started application holds an
    instance of the class so chosen. *)
Theorem configServiceProvider_environment_switch (env : environment) :
  (configServiceProvider env
     = ClassProvider (Class CConfigService) CProdConfigService
   ↔ env !! "NODE_ENV" = Some "production") ∧
  (configServiceProvider env
     = ClassProvider (Class CConfigService) CDevConfigService
   ↔ env !! "NODE_ENV" ≠ Some "production") ∧
  (env !! "NODE_ENV" = None →
   configServiceProvider env
     = ClassProvider (Class CConfigService) CDevConfigService) ∧
  (∀ app, ∃ insts w,
     bootstrap app (AppModule env) empty_world = Some (insts, w) ∧
     bound insts w (Class CConfigService) =
       Some (OConfigService
               (if decide (env !! "NODE_ENV" = Some "production")
                then ProdConfigService.new else DevConfigService.new))).
Proof.
  unfold configServiceProvider. split_and!.
  - case_decide; split; congruence.
  - case_decide; split; congruence.
  - intros Habsent. rewrite decide_False; congruence.
  - intros app. eexists _, _. split; [ apply bootstrap_AppModule | reflexivity ].
Qed.

Lemma configServiceProvider_environment_switch_witness :
  configServiceProvider {[ "NODE_ENV" := "production" ]}
    = ClassProvider (Class CConfigService) CProdConfigService ∧
  configServiceProvider {[ "NODE_ENV" := "development" ]}
    = ClassProvider (Class CConfigService) CDevConfigService ∧
  configServiceProvider ∅
    = ClassProvider (Class CConfigService) CDevConfigService.
Proof.
  split_and!.
  - apply (proj1 (configServiceProvider_environment_switch _)). reflexivity.
  - apply (proj1 (proj2 (configServiceProvider_environment_switch _))).
    discriminate.
  - apply (proj1 (proj2 (proj2 (configServiceProvider_environment_switch _)))).
    reflexivity.
Defined.

(** C5, as stated, fails: the [port] of [AppConfig] is the number 3000, not
    a string. *)
Lemma AppConfig_port_not_string :
  ¬ (∀ key v, AppConfig !! key = Some v → typeof v = "string").
Proof. intros H. specialize (H "port" (VNumber 3000 I) eq_refl). discriminate H. Qed.

(** C5, amended: [AppConfig] consists of the fields host, port and
    apiEndpoint, where host is the string 'localhost', apiEndpoint the
    string '/api' and port the number 3000; the token 'APP_CONFIG' is bound
    to exactly this constant object, unchanged. *)
Theorem AppConfig_value_provider :
  dom AppConfig = {[ "host"; "port"; "apiEndpoint" ]} ∧
  AppConfig !! "host" = Some (VString "localhost") ∧
  AppConfig !! "apiEndpoint" = Some (VString "/api") ∧
  AppConfig !! "port" = Some (VNumber 3000 I) ∧
  appConfigProvider = ValueProvider (Named "APP_CONFIG") (OLiteral AppConfig) ∧
  ∀ app env, ∃ insts w,
    bootstrap app (AppModule env) empty_world = Some (insts, w) ∧
    bound insts w (Named "APP_CONFIG") = Some (OLiteral AppConfig).
Proof.
  split_and!; try reflexivity.
  intros app env. eexists _, _.
  split; [ apply bootstrap_AppModule | reflexivity ].
Qed.

(** C6: 'ALIAS_LOGGER' is declared with [useExisting: LoggerService];
    instantiating the alias yields the instance already bound to
    [LoggerService], so in the started application both tokens resolve to
    the same [LoggerService] instance and that instance is the [logger]
    field of the controller. *)
Theorem alias_logger_same_instance (app : AppService.t) (env : environment) :
  loggerAliasProvider
    = ExistingProvider (Named "ALIAS_LOGGER") (Class CLoggerService) ∧
  (∀ insts w,
     instantiate app insts loggerAliasProvider w
       = (λ r, (r, w)) <$> resolve insts (Class CLoggerService)) ∧
  ∃ insts w r a c,
    bootstrap app (AppModule env) empty_world = Some (insts, w) ∧
    resolve insts (Named "ALIAS_LOGGER") = Some r ∧
    resolve insts (Class CLoggerService) = Some r ∧
    heap w !! r = Some (OLoggerService LoggerService.new) ∧
    bound insts w (Class CAppController) = Some (OAppController a c r).
Proof.
  split_and!; try reflexivity.
  eexists _, _, 5%nat, _, _.
  split; [ apply bootstrap_AppModule | ]. by split_and!.
Qed.

(** ** The factory *)

(** C7: [OptionsProvider.get()] returns the options literal
    [{ host: 'localhost', port: 5432 }] at every call; the factory of
    'DATABASE_CONNECTION' calls it once and constructs the
    [DatabaseConnection] from that very literal, and starting the
    application runs the factory once. *)
Theorem factory_consumes_options_once :
  (dom OptionsProvider.options = {[ "host"; "port" ]} ∧
   OptionsProvider.options !! "host" = Some (VString "localhost") ∧
   OptionsProvider.options !! "port" = Some (VNumber 5432 I)) ∧
  (∀ w this,
     heap w !! this = Some OOptionsProvider →
     ∃ w', OptionsProvider.get this w = Some (OptionsProvider.options, w') ∧
           heap w' = heap w) ∧
  (∀ w optionsProvider,
     heap w !! optionsProvider = Some OOptionsProvider →
     ∃ connection w' events,
       connectionProvider_useFactory [optionsProvider] w = Some (connection, w') ∧
       trace w' = (trace w ++ events)%list ∧
       calls_of "get" events = [optionsProvider] ∧
       heap w' = (heap w ++ [ODatabaseConnection OptionsProvider.options])%list ∧
       heap w' !! connection = Some (ODatabaseConnection OptionsProvider.options)) ∧
  (∀ app env, ∃ insts w optionsProvider,
     bootstrap app (AppModule env) empty_world = Some (insts, w) ∧
     resolve insts (Class COptionsProvider) = Some optionsProvider ∧
     calls_of "get" (trace w) = [optionsProvider] ∧
     bound insts w (Named "DATABASE_CONNECTION")
       = Some (ODatabaseConnection OptionsProvider.options)).
Proof.
  split_and!; try reflexivity.
  - intros w this Hthis. eexists.
    split; [ by apply OptionsProvider_get_Some | done ].
  - intros w optionsProvider Hprovider. eexists _, _, _.
    split; [ by apply useFactory_Some | ].
    split_and!; try done. simpl. by apply list_lookup_middle.
  - intros app env. eexists _, _, 1%nat.
    split; [ apply bootstrap_AppModule | ]. by split_and!.
Qed.

Lemma factory_consumes_options_once_witness :
  ∃ connection w' events,
    connectionProvider_useFactory [0%nat] (World [OOptionsProvider] [])
      = Some (connection, w') ∧
    trace w' = events ∧
    calls_of "get" events = [0%nat] ∧
    heap w' !! connection = Some (ODatabaseConnection OptionsProvider.options).
Proof.
  destruct (proj1 (proj2 (proj2 factory_consumes_options_once))
              (World [OOptionsProvider] []) 0%nat eq_refl)
    as (connection & w' & events & Hrun & Htrace & Hcalls & _ & Hheap).
  by exists connection, w', events.
Defined.

(** C9: [connect()] always returns true; the factory of
    'DATABASE_CONNECTION' calls it exactly once, on the connection it has
    just constructed, before returning that connection; so the object bound
    to 'DATABASE_CONNECTION' in the started application is a
    [DatabaseConnection] on which [connect()] has been called. *)
Theorem factory_connects_once :
  (∀ w this options,
     heap w !! this = Some (ODatabaseConnection options) →
     ∃ w', DatabaseConnection.connect this w = Some (true, w')) ∧
  (∀ w optionsProvider,
     heap w !! optionsProvider = Some OOptionsProvider →
     ∃ connection w' events,
       connectionProvider_useFactory [optionsProvider] w = Some (connection, w') ∧
       heap w !! connection = None ∧
       is_Some (heap w' !! connection) ∧
       trace w' = (trace w ++ events)%list ∧
       calls_of "connect" events = [connection]) ∧
  (∀ app env, ∃ insts w connection options,
     bootstrap app (AppModule env) empty_world = Some (insts, w) ∧
     resolve insts (Named "DATABASE_CONNECTION") = Some connection ∧
     heap w !! connection = Some (ODatabaseConnection options) ∧
     calls_of "connect" (trace w) = [connection]).
Proof.
  split_and!.
  - intros w this options Hthis. eexists. by apply connect_Some.
  - intros w optionsProvider Hprovider. eexists _, _, _.
    split; [ by apply useFactory_Some | ].
    split_and!; simpl.
    + by apply lookup_ge_None_2.
    + eexists. by apply list_lookup_middle.
    + done.
    + reflexivity.
  - intros app env. eexists _, _, 2%nat, _.
    split; [ apply bootstrap_AppModule | ]. by split_and!.
Qed.

Lemma factory_connects_once_witness :
  (∃ w', DatabaseConnection.connect 0
           (World [ODatabaseConnection OptionsProvider.options] [])
         = Some (true, w')) ∧
  ∃ connection w' events,
    connectionProvider_useFactory [0%nat] (World [OOptionsProvider] [])
      = Some (connection, w') ∧
    trace w' = events ∧
    calls_of "connect" events = [connection].
Proof.
  destruct factory_connects_once as (Hconnect & Hfactory & _). split.
  - exact (Hconnect (World [ODatabaseConnection OptionsProvider.options] [])
             0%nat OptionsProvider.options eq_refl).
  - destruct (Hfactory (World [OOptionsProvider] []) 0%nat eq_refl)
      as (connection & w' & events & Hrun & _ & _ & Htrace & Hcalls).
    by exists connection, w', events.
Defined.

(** * Further properties of the sources *)

(** ** Traces *)

Lemma console_of_app (tr1 tr2 : list event) :
  console_of (tr1 ++ tr2)%list = (console_of tr1 ++ console_of tr2)%list.
Proof. apply omap_app. Qed.

Lemma console_of_lines (lines : list (list printable)) :
  console_of (ConsoleLog <$> lines) = lines.
Proof. induction lines as [|line lines IH]; simpl; [ done | by f_equal ]. Qed.

Lemma method_calls_lines (lines : list (list printable)) :
  method_calls (ConsoleLog <$> lines) = [].
Proof. induction lines as [|line lines IH]; simpl; done. Qed.

Lemma console_of_getHello_events a c l lg :
  console_of (getHello_events a c l lg)
    = LoggerService.log lg "getHello() が呼ばれました".
Proof.
  unfold getHello_events. change (console_of (?e :: ?tr)) with (console_of tr).
  by rewrite console_of_app, console_of_lines, app_nil_r.
Qed.

(** ** [AppController.getHello] *)

(** X1: one call of [getHello()] makes exactly three method calls, in this
    order: [logger.log] with the fixed message, [configService.get] with
    'host', [appService.getHello]; it writes to the console only what the
    logger writes, allocates nothing and never reaches the database
    connection. *)
Theorem getHello_effects w this a c l app cfg lg :
  heap w !! this = Some (OAppController a c l) →
  heap w !! a = Some (OAppService app) →
  heap w !! c = Some (OConfigService cfg) →
  heap w !! l = Some (OLoggerService lg) →
  ∃ response w' (events : list event),
    AppController.getHello this w = Some (response, w') ∧
    heap w' = heap w ∧
    trace w' = (trace w ++ events)%list ∧
    method_calls events =
      [ (l, "log", [PValue (VString "getHello() が呼ばれました")]);
        (c, "get", [PValue (VString "host")]);
        (a, "getHello", []) ] ∧
    console_of events = LoggerService.log lg "getHello() が呼ばれました" ∧
    calls_of "connect" events = [].
Proof.
  intros Hthis Ha Hc Hl. eexists _, _, (getHello_events a c l lg).
  split; [ by apply (getHello_Some w this a c l app cfg lg) | ].
  split_and!; try done.
  - unfold getHello_events. simpl. unfold method_calls at 1.
    rewrite omap_app. fold (method_calls (ConsoleLog <$>
      LoggerService.log lg "getHello() が呼ばれました")).
    by rewrite method_calls_lines.
  - apply console_of_getHello_events.
  - unfold getHello_events, calls_of. simpl. rewrite omap_app. simpl.
    rewrite app_nil_r.
    induction (LoggerService.log lg _) as [|line lines IH]; done.
Qed.

Lemma getHello_effects_witness :
  ∃ response w' (events : list event),
    AppController.getHello 3
      (World [ OAppService {| AppService.getHello := "Hello World!" |};
               OConfigService Spec.configStub;
               OLoggerService LoggerService.new;
               OAppController 0 1 2 ] []) = Some (response, w') ∧
    trace w' = events ∧
    length (method_calls events) = 3%nat ∧
    length (console_of events) = 1%nat.
Proof.
  destruct (getHello_effects
              (World [ OAppService {| AppService.getHello := "Hello World!" |};
                       OConfigService Spec.configStub;
                       OLoggerService LoggerService.new;
                       OAppController 0 1 2 ] [])
              3 0 1 2 _ _ _ eq_refl eq_refl eq_refl eq_refl)
    as (response & w' & events & Hrun & _ & Htrace & Hcalls & Hconsole & _).
  exists response, w', events. split_and!; try done.
  - by rewrite Hcalls.
  - by rewrite Hconsole.
Defined.

(** X2: [n] calls of [getHello()] in a row on the same controller all
    succeed and each returns the response of a single call; the heap is
    left as it was and the console receives, [n] times over, what the
    logger writes for the fixed message.  With a string configured for
    'host' that response is the greeting, " - Config Host: " and the
    string. *)
Theorem getHello_times_stable n w this app cfg lg :
  injected w this app cfg lg →
  ∃ response w1 w',
    AppController.getHello this w = Some (response, w1) ∧
    getHello_times n this w = Some (replicate n response, w') ∧
    heap w' = heap w ∧
    console_of (trace w') =
      (console_of (trace w)
         ++ concat (replicate n (LoggerService.log lg "getHello() が呼ばれました")))%list ∧
    (∀ host, ConfigService.get cfg "host" = VString host →
       response = AppService.getHello app +:+ " - Config Host: " +:+ host).
Proof.
  intros (a & c & l & Hthis & Ha & Hc & Hl).
  exists (AppService.getHello app +:+ " - Config Host: "
            +:+ ToString (ConfigService.get cfg "host")),
         (World (heap w) (trace w ++ getHello_events a c l lg)).
  cut (∃ w', getHello_times n this w =
               Some (replicate n (AppService.getHello app +:+ " - Config Host: "
                                    +:+ ToString (ConfigService.get cfg "host")), w') ∧
             heap w' = heap w ∧
             console_of (trace w') =
               (console_of (trace w) ++ concat (replicate n
                  (LoggerService.log lg "getHello() が呼ばれました")))%list).
  { intros (w' & Hrun & Hheap & Hconsole). exists w'. split_and!; try done.
    - by apply getHello_Some.
    - by intros host ->. }
  revert w Hthis Ha Hc Hl. induction n as [|n IH]; intros w Hthis Ha Hc Hl.
  - exists w. simpl. by rewrite app_nil_r.
  - pose proof (getHello_Some w this a c l app cfg lg Hthis Ha Hc Hl) as Hrun.
    destruct (IH (World (heap w) (trace w ++ getHello_events a c l lg)))
      as (w' & Hrest & Hheap & Hconsole); try done.
    exists w'. split_and!.
    + simpl. rewrite (bind_Some _ _ _ _ _ Hrun), (bind_Some _ _ _ _ _ Hrest).
      reflexivity.
    + by rewrite Hheap.
    + rewrite Hconsole. simpl.
      by rewrite console_of_app, console_of_getHello_events, <- app_assoc.
Qed.

Lemma getHello_times_stable_witness :
  ∃ w',
    getHello_times 3 6
      (World (AppModule_heap {| AppService.getHello := "Hello World!" |} ∅) [])
      = Some (replicate 3 "Hello World! - Config Host: localhost", w') ∧
    length (console_of (trace w')) = 3%nat.
Proof.
  destruct (getHello_times_stable 3
              (World (AppModule_heap {| AppService.getHello := "Hello World!" |} ∅) [])
              6 {| AppService.getHello := "Hello World!" |}
              DevConfigService.new LoggerService.new)
    as (response & w1 & w' & _ & Hrun & _ & Hconsole & Hresponse).
  - exists 0%nat, 3%nat, 5%nat. repeat split; reflexivity.
  - exists w'. split; [ | by rewrite Hconsole ].
    by rewrite Hrun, (Hresponse "localhost" eq_refl).
Defined.

(** ** The started application *)

(** X3: the first request to the started application answers the greeting
    followed by " - Config Host: prod.example.com" when [NODE_ENV] is
    'production' and by " - Config Host: localhost" otherwise; by then the
    console holds two lines, the connection line of the factory and the
    'LOG:' line of the logger, and the heap is the one the start-up built. *)
Theorem first_request_response (app : AppService.t) (env : environment) :
  ∃ w',
    first_request app env =
      Some (AppService.getHello app +:+ " - Config Host: "
              +:+ (if decide (env !! "NODE_ENV" = Some "production")
                   then "prod.example.com" else "localhost"), w') ∧
    console_of (trace w') =
      [ [PValue (VString "データベース接続を実施:"); PObject OptionsProvider.options];
        [PValue (VString "LOG:"); PValue (VString "getHello() が呼ばれました")] ] ∧
    heap w' = AppModule_heap app env.
Proof.
  unfold first_request. rewrite (bind_Some _ _ _ _ _ (bootstrap_AppModule app env)).
  eexists. split_and!.
  - change (lift (resolve AppModule_instances (Class CAppController)) ≫= ?f)
      with (λ w, f 6%nat w). cbv beta.
    rewrite (getHello_Some _ 6 0 3 5 app
               (if decide (env !! "NODE_ENV" = Some "production")
                then ProdConfigService.new else DevConfigService.new)
               LoggerService.new); try reflexivity.
    by case_decide.
  - reflexivity.
  - reflexivity.
Qed.

(** X4: the environment reaches the started application only through the
    [ConfigService] instance: two environments give the same bindings and
    the same start-up trace, and heaps that agree at every address except
    the one bound to [ConfigService]; environments that agree on [NODE_ENV]
    give the same world. *)
Theorem environment_reaches_only_ConfigService (app : AppService.t)
    (env env' : environment) :
  ∃ insts w w',
    bootstrap app (AppModule env) empty_world = Some (insts, w) ∧
    bootstrap app (AppModule env') empty_world = Some (insts, w') ∧
    trace w = trace w' ∧
    (∀ r, resolve insts (Class CConfigService) ≠ Some r →
          heap w !! r = heap w' !! r) ∧
    (env !! "NODE_ENV" = env' !! "NODE_ENV" → w = w').
Proof.
  eexists _, _, _. rewrite !bootstrap_AppModule. split_and!; try done.
  - intros r Hr. simpl.
    do 3 (destruct r as [|r]; [ done | ]).
    destruct r as [|r]; [ by destruct Hr | done ].
  - intros Heq. unfold AppModule_heap. by rewrite Heq.
Qed.

Lemma environment_reaches_only_ConfigService_witness :
  ∃ insts w w',
    bootstrap {| AppService.getHello := "Hello World!" |}
      (AppModule {[ "NODE_ENV" := "production" ]}) empty_world = Some (insts, w) ∧
    bootstrap {| AppService.getHello := "Hello World!" |}
      (AppModule ∅) empty_world = Some (insts, w') ∧
    heap w !! 6%nat = heap w' !! 6%nat.
Proof.
  destruct (environment_reaches_only_ConfigService
              {| AppService.getHello := "Hello World!" |}
              {[ "NODE_ENV" := "production" ]} ∅)
    as (insts & w & w' & Hrun & Hrun' & _ & Hheap & _).
  exists insts, w, w'. split_and!; try done.
  apply Hheap. rewrite bootstrap_AppModule in Hrun.
  injection Hrun as <- _. discriminate.
Defined.

(** ** [DevConfigService.get] and [ProdConfigService.get] *)

Lemma inherited_not_undefined key :
  key ∈ ObjectPrototype.names → ObjectPrototype.get key ≠ None ∧
  ObjectPrototype.get key ≠ Some VUndefined.
Proof.
  unfold ObjectPrototype.names, ObjectPrototype.get. intros Hin.
  apply elem_of_cons in Hin as [-> | Hin]; [ done | ].
  apply elem_of_cons in Hin as [-> | Hin]; [ done | ].
  rewrite (decide_True _ _ Hin). by repeat case_decide.
Qed.

(** X5: the declared return type [string] is honoured exactly at the keys
    'host' and 'port': for both services the result of [get(key)] is a
    string if and only if [key] is one of the two. *)
Theorem get_string_iff_host_or_port key :
  (typeof (DevConfigService.get key) = "string" ↔ key = "host" ∨ key = "port") ∧
  (typeof (ProdConfigService.get key) = "string" ↔ key = "host" ∨ key = "port").
Proof.
  split; (split; [ | by intros [-> | ->] ]); intros Hstring.
  - destruct (decide (key = "host")) as [|Hhost]; [ by left | ].
    destruct (decide (key = "port")) as [|Hport]; [ by right | ].
    exfalso. revert Hstring. unfold DevConfigService.get, get_property.
    rewrite dev_config_other by done. apply get_property_inherited.
  - destruct (decide (key = "host")) as [|Hhost]; [ by left | ].
    destruct (decide (key = "port")) as [|Hport]; [ by right | ].
    exfalso. revert Hstring. unfold ProdConfigService.get, get_property.
    rewrite prod_config_other by done. apply get_property_inherited.
Qed.

Lemma get_string_iff_host_or_port_witness :
  typeof (DevConfigService.get "port") = "string" ∧
  typeof (ProdConfigService.get "host") = "string".
Proof.
  split.
  - apply (proj1 (get_string_iff_host_or_port "port")). by right.
  - apply (proj2 (get_string_iff_host_or_port "host")). by left.
Defined.

(** X6: for both services [get(key)] is undefined if and only if [key] is
    neither 'host' nor 'port' nor the name of a property inherited from
    [Object.prototype]; at an inherited name the two services return the
    same inherited member. *)
Theorem get_undefined_iff key :
  (DevConfigService.get key = VUndefined
   ↔ key ∉ "host" :: "port" :: ObjectPrototype.names) ∧
  (ProdConfigService.get key = VUndefined
   ↔ key ∉ "host" :: "port" :: ObjectPrototype.names) ∧
  (key ∈ ObjectPrototype.names →
   DevConfigService.get key = ProdConfigService.get key ∧
   ObjectPrototype.get key = Some (DevConfigService.get key)).
Proof.
  assert (Hinherited : key ∈ ObjectPrototype.names →
            key ≠ "host" ∧ key ≠ "port").
  { intros Hin. split; intros ->; revert Hin; by apply (bool_decide_unpack _). }
  split_and!.
  - rewrite !not_elem_of_cons. split.
    + intros Hundef. split_and!; try (intros ->; discriminate Hundef).
      intros Hin. destruct (Hinherited Hin) as [Hhost Hport].
      destruct (inherited_not_undefined key Hin) as [Hsome Hdef].
      revert Hundef. unfold DevConfigService.get, get_property.
      rewrite dev_config_other by done.
      destruct (ObjectPrototype.get key); simpl; congruence.
    + intros (Hhost & Hport & Hnames).
      by apply get_property_missing; [ apply dev_config_other | ].
  - rewrite !not_elem_of_cons. split.
    + intros Hundef. split_and!; try (intros ->; discriminate Hundef).
      intros Hin. destruct (Hinherited Hin) as [Hhost Hport].
      destruct (inherited_not_undefined key Hin) as [Hsome Hdef].
      revert Hundef. unfold ProdConfigService.get, get_property.
      rewrite prod_config_other by done.
      destruct (ObjectPrototype.get key); simpl; congruence.
    + intros (Hhost & Hport & Hnames).
      by apply get_property_missing; [ apply prod_config_other | ].
  - intros Hin. destruct (Hinherited Hin) as [Hhost Hport].
    destruct (inherited_not_undefined key Hin) as [Hsome _].
    unfold DevConfigService.get, ProdConfigService.get, get_property.
    rewrite dev_config_other, prod_config_other by done.
    split; [ done | ]. by destruct (ObjectPrototype.get key).
Qed.

Lemma get_undefined_iff_witness :
  DevConfigService.get "apiEndpoint" = VUndefined ∧
  DevConfigService.get "valueOf" = ProdConfigService.get "valueOf".
Proof.
  split.
  - apply (proj1 (get_undefined_iff "apiEndpoint")).
    by apply (bool_decide_unpack _).
  - apply (proj2 (proj2 (get_undefined_iff "valueOf"))).
    by apply (bool_decide_unpack _).
Defined.

(** ** [DatabaseConnection] *)

(** X7: [connect()] keeps no record of having been called: on a connection
    constructed with any options, every call succeeds with true, leaves the
    heap as it was and writes one more console line carrying the options
    the constructor was given; two calls in a row write two such lines. *)
Theorem connect_repeatable w this options :
  heap w !! this = Some (ODatabaseConnection options) →
  ∃ w1 w2,
    DatabaseConnection.connect this w = Some (true, w1) ∧
    DatabaseConnection.connect this w1 = Some (true, w2) ∧
    heap w1 = heap w ∧ heap w2 = heap w ∧
    console_of (trace w2) =
      (console_of (trace w)
         ++ [ [PValue (VString "データベース接続を実施:"); PObject options];
              [PValue (VString "データベース接続を実施:"); PObject options] ])%list.
Proof.
  intros Hthis. eexists _, _.
  split; [ by apply connect_Some | ].
  split; [ by apply connect_Some | ].
  split_and!; try done. simpl.
  rewrite !console_of_app. simpl. by rewrite <- app_assoc.
Qed.

Lemma connect_repeatable_witness :
  ∃ w1 w2,
    DatabaseConnection.connect 0 (World [ODatabaseConnection AppConfig] [])
      = Some (true, w1) ∧
    DatabaseConnection.connect 0 w1 = Some (true, w2) ∧
    length (console_of (trace w2)) = 2%nat.
Proof.
  destruct (connect_repeatable (World [ODatabaseConnection AppConfig] [])
              0 AppConfig eq_refl)
    as (w1 & w2 & Hrun1 & Hrun2 & _ & _ & Hconsole).
  exists w1, w2. split_and!; try done. by rewrite Hconsole.
Defined.

(** X8: a connection constructed from any options and then connected logs
    those very options: the constructor stores its argument and [connect()]
    reads it back. *)
Theorem new_then_connect_logs_options (options : literal) (w : world) :
  ∃ connection w',
    (connection ← DatabaseConnection.new options;
     DatabaseConnection.connect connection;; mret connection) w
      = Some (connection, w') ∧
    heap w !! connection = None ∧
    heap w' !! connection = Some (ODatabaseConnection options) ∧
    console_of (trace w') =
      (console_of (trace w)
         ++ [[PValue (VString "データベース接続を実施:"); PObject options]])%list.
Proof.
  eexists _, _. split_and!.
  - erewrite bind_Some; [ | apply new_connection_Some ].
    erewrite bind_Some;
      [ | apply connect_Some; simpl; by apply list_lookup_middle ].
    reflexivity.
  - by apply lookup_ge_None_2.
  - simpl. by apply list_lookup_middle.
  - simpl. by rewrite console_of_app.
Qed.

(** ** The module declaration *)

(** X9: whatever the environment, the application module declares each
    token once, every token it exports is one it provides, and each
    exported token is bound to an object once the application has
    started. *)
Theorem exports_are_provided (app : AppService.t) (env : environment) :
  NoDup (provided (AppModule env)) ∧
  exports (AppModule env) ⊆ provided (AppModule env) ∧
  ∃ insts w,
    bootstrap app (AppModule env) empty_world = Some (insts, w) ∧
    ∀ t, t ∈ exports (AppModule env) → is_Some (bound insts w t).
Proof.
  split_and!.
  - by apply (bool_decide_unpack _).
  - by apply (bool_decide_unpack _).
  - eexists _, _. split; [ apply bootstrap_AppModule | ].
    intros t Ht. simpl in Ht.
    repeat (apply elem_of_cons in Ht as [-> | Ht]; [ by eexists | ]).
    by apply elem_of_nil in Ht.
Qed.

(** ** The test of [app.controller.spec.ts] *)

Lemma list_ascii_of_string_append (s t : string) :
  String.list_ascii_of_string (s +:+ t)
    = (String.list_ascii_of_string s ++ String.list_ascii_of_string t)%list.
Proof. induction s as [|ch s IH]; simpl; [ done | by rewrite IH ]. Qed.

Lemma append_inv_tail (s1 s2 t : string) : s1 +:+ t = s2 +:+ t → s1 = s2.
Proof.
  intros Heq. apply (f_equal String.list_ascii_of_string) in Heq.
  rewrite !list_ascii_of_string_append in Heq. apply app_inv_tail in Heq.
  apply (f_equal String.string_of_list_ascii) in Heq.
  by rewrite !String.string_of_list_ascii_of_string in Heq.
Qed.

(** X11: the test never throws, whatever the [AppService]: its run returns
    the greeting followed by " - Config Host: localhost" and leaves the
    console empty; so its expectation holds if and only if
    [appService.getHello()] is exactly 'Hello World!'. *)
Theorem root_test_passes_iff_greeting (app : AppService.t) :
  SpecRun.root app = Some (AppService.getHello app +:+ " - Config Host: localhost") ∧
  (SpecRun.root app = Some "Hello World! - Config Host: localhost"
   ↔ AppService.getHello app = "Hello World!") ∧
  (∃ insts w s w',
     bootstrap app Spec.TestingModule empty_world = Some (insts, w) ∧
     (appController ← lift (resolve insts (Class CAppController));
      AppController.getHello appController) w = Some (s, w') ∧
     console_of (trace w') = []).
Proof.
  assert (Hrun : SpecRun.root app =
            Some (AppService.getHello app +:+ " - Config Host: localhost"))
    by reflexivity.
  split_and!.
  - exact Hrun.
  - rewrite Hrun. split.
    + intros Heq. injection Heq as Heq.
      by apply (append_inv_tail _ "Hello World!" " - Config Host: localhost").
    + by intros ->.
  - eexists _, _, _, _. split_and!; reflexivity.
Qed.

Lemma root_test_passes_iff_greeting_witness :
  SpecRun.root {| AppService.getHello := "Hello World!" |}
    = Some "Hello World! - Config Host: localhost" ∧
  SpecRun.root {| AppService.getHello := "Hello!" |}
    ≠ Some "Hello World! - Config Host: localhost".
Proof.
  split.
  - by apply (proj2 (proj1 (proj2 (root_test_passes_iff_greeting
                                     {| AppService.getHello := "Hello World!" |})))).
  - intros Hpass.
    by pose proof (proj1 (proj1 (proj2 (root_test_passes_iff_greeting
                                          {| AppService.getHello := "Hello!" |})))
                     Hpass).
Defined.

Lemma exports_are_provided_witness :
  NoDup (provided (AppModule {[ "NODE_ENV" := "production" ]})) ∧
  ∃ insts w,
    bootstrap {| AppService.getHello := "Hello World!" |}
      (AppModule {[ "NODE_ENV" := "production" ]}) empty_world = Some (insts, w) ∧
    is_Some (bound insts w (Named "DATABASE_CONNECTION")).
Proof.
  destruct (exports_are_provided {| AppService.getHello := "Hello World!" |}
              {[ "NODE_ENV" := "production" ]})
    as (Hnodup & _ & insts & w & Hrun & Hbound).
  split; [ exact Hnodup | ]. exists insts, w. split; [ exact Hrun | ].
  apply Hbound. by apply (bool_decide_unpack _).
Defined.
